(** * NovyWave, examples/amaranth/counter/counter.py

    An 8-bit counter with enable and overflow detection, its simulation
    testbench and its command-line entry point.

    The Amaranth design is embedded shallowly: a [Signal(w)] is an integer
    in [Z] cut to [w] bits on assignment, the [sync] domain of [elaborate]
    is the function that maps the registers before a clock edge to the
    registers after it, and the generator [testbench] is a computation in a
    state monad over the simulator. *)

From Stdlib Require Import ZArith List String Ascii Bool Lia.
From Stdlib Require Import DecimalString.
From ExtLib Require Import Structures.Monad Data.Monads.StateMonad.
Import ListNotations.

(** ** The counter (class [Counter]) *)

Module Counter.

Local Open Scope Z_scope.

(** Assignment to a [Signal(width)] keeps the low [width] bits of the
    right-hand side. *)
Definition truncate (width : Z) (v : Z) : Z := Z.land v (Z.ones width).

(** The registers driven from the [sync] domain: [count = Signal(8)] and
    [overflow = Signal()].  [enable = Signal()] is an input port. *)
Record CounterState : Type := mkCounterState
  { count : Z
  ; overflow : bool }.

Definition set_count (s : CounterState) (v : Z) : CounterState :=
  {| count := truncate 8 v; overflow := overflow s |}.

Definition set_overflow (s : CounterState) (v : Z) : CounterState :=
  {| count := count s; overflow := Z.odd (truncate 1 v) |}.

(** Signals without an explicit reset value start at zero. *)
Definition reset : CounterState := {| count := 0; overflow := false |}.

(** [Counter.elaborate]: the statements added to [m.d.sync], in program
    order.  Every right-hand side and condition reads the registers [cur] as
    they are before the edge; a register no statement assigns keeps its
    value. *)
Definition elaborate (enable : bool) (cur : CounterState) : CounterState :=
  let next := cur in
  (* with m.If(self.enable): m.d.sync += self.count.eq(self.count + 1) *)
  let next := if enable then set_count next (count cur + 1) else next in
  (* with m.If(self.enable & (self.count == 255)): overflow.eq(1)
     with m.Else():                                overflow.eq(0) *)
  let next :=
    if enable && (count cur =? 255)
    then set_overflow next 1
    else set_overflow next 0 in
  next.

(** A sequence of clock edges, one [enable] value per edge. *)
Definition run (enables : list bool) (s : CounterState) : CounterState :=
  fold_left (fun s e => elaborate e s) enables s.

(** Number of edges of a history at which [enable] was true. *)
Definition enabled_edges (enables : list bool) : nat :=
  count_occ bool_dec enables true.

(** States of a run from [reset], each with the edge that produced it:
    [None] for the initial state, [Some (prev, enable)] for the state after
    an edge taken in [prev] under [enable]. *)
Inductive arrives : option (CounterState * bool) -> CounterState -> Prop :=
| arrives_reset : arrives None reset
| arrives_edge p prev enable :
    arrives p prev ->
    arrives (Some (prev, enable)) (elaborate enable prev).

Definition reachable (s : CounterState) : Prop := exists p, arrives p s.

End Counter.

(** ** The simulation (function [simulate]) *)

Module Sim.
Import Counter.
Import MonadNotation.
Local Open Scope monad_scope.
Local Open Scope string_scope.

(** One line of the recorded waveform: the input and the registers right
    after a clock edge. *)
Definition Sample : Type := (bool * CounterState)%type.

(** The simulator as the testbench sees it: the value it last scheduled on
    the input [dut.enable], the registers of the design, the waveform
    recorded so far (one sample per clock edge, oldest first) and the lines
    printed so far. *)
Record Sim : Type := mkSim
  { enable : bool
  ; regs : CounterState
  ; wave : list Sample
  ; stdout : list string }.

(** [Simulator(dut)]: every signal at its reset value, nothing recorded. *)
Definition boot : Sim :=
  {| enable := false; regs := reset; wave := []; stdout := [] |}.

(** [yield dut.enable.eq(v)]: the input change takes effect at once. *)
Definition set_enable (v : bool) : state Sim unit :=
  mkState (fun s =>
    (tt, {| enable := v; regs := regs s; wave := wave s;
            stdout := stdout s |})).

(** [yield Tick()]: advance one clock edge.  The [sync] domain of the
    design is applied once, under the input as it is at the edge, and the
    edge is recorded in the waveform. *)
Definition Tick : state Sim unit :=
  mkState (fun s =>
    let regs' := elaborate (enable s) (regs s) in
    (tt, {| enable := enable s; regs := regs';
            wave := wave s ++ [(enable s, regs')];
            stdout := stdout s |})).

(** [yield dut.overflow]: the current value of the output. *)
Definition read_overflow : state Sim bool :=
  mkState (fun s => (overflow (regs s), s)).

Definition print (line : string) : state Sim unit :=
  mkState (fun s =>
    (tt, {| enable := enable s; regs := regs s; wave := wave s;
            stdout := stdout s ++ [line] |})).

(** [for _ in range(n): body] *)
Fixpoint for_range (n : nat) (body : state Sim unit) : state Sim unit :=
  match n with
  | O => ret tt
  | S n => body ;; for_range n body
  end.

(** [str(n)] as an f-string renders it. *)
Definition str (n : nat) : string := NilEmpty.string_of_uint (Nat.to_uint n).

(** [f"  Overflow detected at cycle {cycles}"] *)
Definition overflow_detected (cycles : nat) : string :=
  "  Overflow detected at cycle " ++ str cycles.

(** The loop of test 4,
    [while cycles < 300: yield Tick(); cycles += 1;
     overflow = yield dut.overflow; if overflow: print(...); break],
    returning the value of [cycles] when the loop is left.  [fuel] bounds
    the number of iterations; [SimFacts.fuel_enough] shows that 300 are
    never used up before the guard fails. *)
Fixpoint while_cycles (fuel : nat) (cycles : nat) : state Sim nat :=
  if (cycles <? 300)%nat then
    match fuel with
    | O => ret cycles
    | S fuel =>
        Tick ;;
        let cycles := (cycles + 1)%nat in
        overflow <- read_overflow ;;
        if overflow : bool then
          print (overflow_detected cycles) ;;
          ret cycles
        else while_cycles fuel cycles
    end
  else ret cycles.

(** Lines 43 to 64 of [testbench]: the fixed stimulus before test 4. *)
Definition stimulus : state Sim unit :=
  (* Initialize *)
  set_enable false ;;
  for_range 5 Tick ;;
  (* Test 1: Enable counting *)
  print "Test 1: Enable counting" ;;
  set_enable true ;;
  for_range 20 Tick ;;
  (* Test 2: Disable counting *)
  print "Test 2: Disable counting" ;;
  set_enable false ;;
  for_range 5 Tick ;;
  (* Test 3: Resume counting *)
  print "Test 3: Resume counting" ;;
  set_enable true ;;
  for_range 10 Tick.

(** Lines 66 to 75 of [testbench]: test 4, count to overflow. *)
Definition count_to_overflow : state Sim nat :=
  print "Test 4: Counting to overflow" ;;
  while_cycles 300 0.

(** The generator [testbench]. *)
Definition testbench : state Sim unit :=
  stimulus ;;
  _ <- count_to_overflow ;;
  (* Continue a bit after overflow *)
  for_range 10 Tick ;;
  print "Simulation complete!".

(** The simulator after one [Tick]. *)
Definition edge (s : Sim) : Sim := execState Tick s.

(** The registers [k] clock edges after [s], with the input held. *)
Definition after (k : nat) (s : Sim) : CounterState :=
  Nat.iter k (elaborate (enable s)) (regs s).

End Sim.

(** ** The program ([generate_verilog] and the [__main__] block) *)

Module Cli.
Import Counter Sim.
Local Open Scope string_scope.

(** What the external collaborators put into the files they write: the
    value-change dump of a recorded waveform, the viewer layout that goes
    with it, and the Verilog text converted from a design with the given
    ports. *)
Inductive Content : Type :=
| Vcd (trace : list Sample)
| Gtkw
| Verilog (ports : list string).

(** The part of the world the program acts on: the files of the working
    directory and the standard output. *)
Record World : Type := mkWorld
  { files : list (string * Content)
  ; console : list string }.

Definition lookup (name : string) (fs : list (string * Content))
  : option Content :=
  match find (fun f => fst f =? name) fs with
  | Some f => Some (snd f)
  | None => None
  end.

(** Opening a file for writing replaces what it held. *)
Definition write_file (name : string) (c : Content)
    (fs : list (string * Content)) : list (string * Content) :=
  (name, c) :: filter (fun f => negb (fst f =? name)) fs.

(** [simulate]: run the testbench on a fresh simulator with the waveform
    written to [counter.vcd] and its layout to [counter.gtkw]. *)
Definition simulate (w : World) : World :=
  let sim := execState testbench boot in
  {| files :=
       write_file "counter.gtkw" Gtkw
         (write_file "counter.vcd" (Vcd (wave sim)) (files w));
     console :=
       console w ++ stdout sim ++
       [String "010" "VCD file generated: counter.vcd";
        "Open in NovyWave: novywave counter.vcd"] |}.

(** [generate_verilog] *)
Definition generate_verilog (w : World) : World :=
  let output := Verilog ["enable"; "count"; "overflow"] in
  {| files := write_file "counter.v" output (files w);
     console := console w ++ ["Verilog file generated: counter.v"] |}.

(** The [__main__] block, on [sys.argv].  The index [1] is only read when
    the length test has passed. *)
Definition main (argv : list string) (w : World) : World :=
  if (1 <? List.length argv)%nat
     && match nth_error argv 1 with
        | Some arg => arg =? "verilog"
        | None => false
        end
  then generate_verilog w
  else simulate w.

(** The [__main__] block once more, with the [IndexError] that
    [sys.argv[1]] raises on a list too short made explicit: [None] stands
    for the exception.  The right operand of [and] is only evaluated when
    the left one is true. *)
Definition main_checked (argv : list string) (w : World) : option World :=
  if (1 <? List.length argv)%nat then
    match nth_error argv 1 with
    | Some arg =>
        if arg =? "verilog" then Some (generate_verilog w)
        else Some (simulate w)
    | None => None
    end
  else Some (simulate w).

End Cli.

(** ** Properties of the counter *)

Module CounterFacts.
Import Counter.
Local Open Scope Z_scope.

Lemma truncate_mod (v : Z) : truncate 8 v = v mod 256.
Proof. unfold truncate. rewrite Z.land_ones by lia. reflexivity. Qed.

Lemma elaborate_enabled (s : CounterState) :
  elaborate true s =
  {| count := (count s + 1) mod 256; overflow := count s =? 255 |}.
Proof.
  unfold elaborate. cbn [andb].
  destruct (count s =? 255); unfold set_overflow, set_count;
    cbn [count overflow]; rewrite truncate_mod; reflexivity.
Qed.

Lemma elaborate_disabled (s : CounterState) :
  elaborate false s = {| count := count s; overflow := false |}.
Proof. reflexivity. Qed.

Lemma run_app (es1 es2 : list bool) (s : CounterState) :
  run (es1 ++ es2) s = run es2 (run es1 s).
Proof. apply fold_left_app. Qed.

Lemma run_snoc (es : list bool) (e : bool) (s : CounterState) :
  run (es ++ [e]) s = elaborate e (run es s).
Proof. rewrite run_app. reflexivity. Qed.

(** Every history leads to a reachable state, and the edge recorded for a
    non-empty history is its last one. *)
Lemma arrives_run (es : list bool) :
  arrives
    (match rev es with
     | [] => None
     | e :: before => Some (run (rev before) reset, e)
     end)
    (run es reset).
Proof.
  induction es as [|e es IH] using rev_ind.
  - constructor.
  - rewrite rev_app_distr. cbn [rev app]. rewrite rev_involutive, run_snoc.
    econstructor. exact IH.
Qed.

Lemma reachable_run (es : list bool) : reachable (run es reset).
Proof. eexists. apply arrives_run. Qed.

Lemma count_range (p : option (CounterState * bool)) (s : CounterState) :
  arrives p s -> 0 <= count s < 256.
Proof.
  induction 1 as [|p prev e _ IH].
  - cbn. lia.
  - destruct e.
    + rewrite elaborate_enabled. cbn [count]. apply Z.mod_pos_bound. lia.
    + rewrite elaborate_disabled. exact IH.
Qed.

Lemma count_run (es : list bool) (s : CounterState) :
  0 <= count s < 256 ->
  count (run es s) = (count s + Z.of_nat (enabled_edges es)) mod 256.
Proof.
  revert s. induction es as [|e es IH]; intros s Hs.
  - cbn. rewrite Z.add_0_r, Z.mod_small; lia.
  - change (run (e :: es) s) with (run es (elaborate e s)).
    destruct e.
    + rewrite IH; rewrite elaborate_enabled; cbn [count].
      * unfold enabled_edges. rewrite count_occ_cons_eq by reflexivity.
        rewrite Z.add_mod_idemp_l by lia. f_equal. lia.
      * apply Z.mod_pos_bound. lia.
    + rewrite IH; rewrite elaborate_disabled; cbn [count]; [|exact Hs].
      unfold enabled_edges. rewrite count_occ_cons_neq by discriminate.
      reflexivity.
Qed.

(** C1: the transition taken at a clock edge.  With [enable] true the next
    count is [(count + 1) mod 256] and the next overflow is true exactly
    when the count before the edge is 255; with [enable] false the count is
    kept and the next overflow is false.  This holds for every state and
    does not depend on the current overflow. *)
Theorem elaborate_transition (s : CounterState) :
  (count (elaborate true s) = (count s + 1) mod 256 /\
   (overflow (elaborate true s) = true <-> count s = 255)) /\
  (count (elaborate false s) = count s /\
   overflow (elaborate false s) = false).
Proof.
  rewrite elaborate_enabled, elaborate_disabled. cbn [count overflow].
  repeat split; try apply Z.eqb_eq.
Qed.

(** An edge raises [overflow] exactly when it is taken with [enable] true
    from a count of 255. *)
Lemma edge_overflow (e : bool) (prev : CounterState) :
  overflow (elaborate e prev) = true <-> e = true /\ count prev = 255.
Proof.
  destruct e.
  - rewrite elaborate_enabled. cbn [overflow]. rewrite Z.eqb_eq. tauto.
  - rewrite elaborate_disabled. cbn [overflow].
    split; [discriminate | intros [H _]; discriminate].
Qed.

(** C2: in every state of a run from the initial state, [overflow] is true
    if and only if the state was produced by an edge taken with [enable]
    true in a state whose count was 255.  The initial state has no such
    edge and its overflow is false. *)
Theorem overflow_iff_wrapped
    (p : option (CounterState * bool)) (s : CounterState) :
  arrives p s ->
  (overflow s = true <-> exists prev, p = Some (prev, true) /\ count prev = 255).
Proof.
  intros H. destruct H as [|p prev e _].
  - split; [discriminate | intros (prev & Hp & _); discriminate].
  - rewrite edge_overflow. split.
    + intros [-> Hc]. exists prev. split; [reflexivity | exact Hc].
    + intros (prev' & Hp & Hc). injection Hp as -> ->. split; [reflexivity | exact Hc].
Qed.

Lemma overflow_iff_wrapped_witness :
  let prev := {| count := 255; overflow := false |} in
  let s := {| count := 0; overflow := true |} in
  arrives (Some (prev, true)) s /\
  (overflow s = true <->
   exists prev', Some (prev, true) = Some (prev', true) /\ count prev' = 255).
Proof.
  intros prev s.
  assert (H : arrives (Some (prev, true)) s)
    by exact (arrives_run (repeat true 256)).
  split; [exact H | exact (overflow_iff_wrapped _ _ H)].
Defined.

(** C3: from any state with count 0, after a history of edges of which [N]
    were taken with [enable] true, in any interleaving with edges taken with
    [enable] false, the count is [N mod 256]. *)
Theorem count_after_enabled_edges
    (N : nat) (es : list bool) (s : CounterState) :
  count s = 0 ->
  enabled_edges es = N ->
  count (run es s) = Z.of_nat N mod 256.
Proof.
  intros Hs <-. rewrite count_run by lia. rewrite Hs. reflexivity.
Qed.

Lemma count_after_enabled_edges_witness :
  let es := [false] ++ repeat true 200 ++ [false; false] ++ repeat true 60 in
  count reset = 0 /\ enabled_edges es = 260%nat /\ count (run es reset) = 4.
Proof.
  intros es. split; [reflexivity | split; [reflexivity |]].
  apply (count_after_enabled_edges 260 es reset); reflexivity.
Defined.

(** C4: from the initial state, 255 consecutive enabled edges give count 255
    with overflow false, and the 256th gives count 0 with overflow true. *)
Theorem overflow_at_256th_edge :
  run (repeat true 255) reset = {| count := 255; overflow := false |} /\
  run (repeat true 256) reset = {| count := 0; overflow := true |} /\
  elaborate true {| count := 255; overflow := false |} =
    {| count := 0; overflow := true |}.
Proof. vm_compute. repeat split. Qed.

(** C8: in every state reachable from the initial state, overflow true
    implies count 0. *)
Theorem overflow_only_at_zero (s : CounterState) :
  reachable s -> overflow s = true -> count s = 0.
Proof.
  intros [p H] Hov. destruct H as [|p prev e _].
  - discriminate Hov.
  - apply edge_overflow in Hov as [-> Hc].
    rewrite elaborate_enabled. cbn [count]. rewrite Hc. reflexivity.
Qed.

Lemma overflow_only_at_zero_witness :
  let s := {| count := 0; overflow := true |} in
  reachable s /\ overflow s = true /\ count s = 0.
Proof.
  intros s.
  assert (H : reachable s) by exact (reachable_run (repeat true 256)).
  split; [exact H | split; [reflexivity |]].
  apply (overflow_only_at_zero s H). reflexivity.
Defined.

(** *** Further properties of the counter *)

Lemma enabled_edges_snoc (es : list bool) (e : bool) :
  enabled_edges (es ++ [e]) =
  (enabled_edges es + if e then 1 else 0)%nat.
Proof.
  unfold enabled_edges. rewrite count_occ_app.
  destruct e; reflexivity.
Qed.

(** X1: the count of every state reachable from the initial state fits the
    eight bits of [Signal(8)]. *)
Theorem count_is_8bit (s : CounterState) :
  reachable s -> 0 <= count s < 256.
Proof. intros [p H]. exact (count_range p s H). Qed.

Lemma count_is_8bit_witness :
  let s := {| count := 255; overflow := false |} in
  reachable s /\ 0 <= count s < 256.
Proof.
  intros s.
  assert (H : reachable s) by exact (reachable_run (repeat true 255)).
  split; [exact H | exact (count_is_8bit s H)].
Defined.

(** X2: overflow is a pulse of one clock cycle.  Whatever the state and
    the inputs, an edge that raises overflow is followed by an edge that
    clears it. *)
Theorem overflow_single_cycle (e1 e2 : bool) (s : CounterState) :
  overflow (elaborate e1 s) = true ->
  overflow (elaborate e2 (elaborate e1 s)) = false.
Proof.
  intros H. apply edge_overflow in H as [-> Hc].
  apply not_true_is_false. intros H2.
  apply edge_overflow in H2 as [_ H2].
  rewrite elaborate_enabled in H2. cbn [count] in H2.
  rewrite Hc in H2. discriminate H2.
Qed.

Lemma overflow_single_cycle_witness :
  let s := {| count := 255; overflow := false |} in
  overflow (elaborate true s) = true /\
  overflow (elaborate true (elaborate true s)) = false.
Proof.
  intros s. split; [reflexivity|].
  apply (overflow_single_cycle true true s). reflexivity.
Defined.

(** X3: from the initial state, overflow is raised exactly by the enabled
    edges number 256, 512, ...: the state after a history is in overflow if
    and only if its last edge was enabled and the number of enabled edges so
    far is a multiple of 256. *)
Theorem overflow_every_256 (es : list bool) (e : bool) :
  overflow (run (es ++ [e]) reset) = true <->
  e = true /\ Z.of_nat (enabled_edges (es ++ [e])) mod 256 = 0.
Proof.
  rewrite run_snoc, edge_overflow, enabled_edges_snoc.
  rewrite (count_run es reset) by (cbn; lia).
  change (count reset) with 0. rewrite Z.add_0_l.
  destruct e.
  - rewrite Nat2Z.inj_add. change (Z.of_nat 1) with 1.
    generalize (Z.of_nat (enabled_edges es)) as n. intros n.
    split; intros [_ H]; (split; [reflexivity|]);
      Z.to_euclidean_division_equations; lia.
  - split; intros [H _]; discriminate H.
Qed.

(** X4: from any eight-bit count [c], a history with [N] enabled edges
    leads to count [(c + N) mod 256], whatever the disabled edges in
    between. *)
Theorem count_from_any_state (es : list bool) (s : CounterState) :
  0 <= count s < 256 ->
  count (run es s) = (count s + Z.of_nat (enabled_edges es)) mod 256.
Proof. exact (count_run es s). Qed.

Lemma count_from_any_state_witness :
  let s := {| count := 250; overflow := false |} in
  let es := [true; true; false; true; true; true; true; false; true; true] in
  0 <= count s < 256 /\ count (run es s) = 2.
Proof.
  intros s es. split; [cbn; lia|].
  apply (count_from_any_state es s). cbn. lia.
Defined.

End CounterFacts.

(** ** Properties of the testbench *)

Module SimFacts.
Import Counter Sim CounterFacts.
Import MonadNotation.
Local Open Scope monad_scope.
Local Open Scope string_scope.

Lemma after_edge (j : nat) (s : Sim) : after j (edge s) = after (S j) s.
Proof. unfold after. cbn [edge execState Tick runState snd enable regs].
  symmetry. apply Nat.iter_succ_r. Qed.

Lemma edge_regs (s : Sim) : regs (edge s) = after 1 s.
Proof. reflexivity. Qed.

Lemma edge_wave (s : Sim) :
  List.length (wave (edge s)) = S (List.length (wave s)).
Proof. cbn. rewrite length_app. cbn. lia. Qed.

(** One turn of the loop of test 4, below the cap. *)
Lemma while_cycles_step (fuel cycles : nat) (s : Sim) :
  (cycles < 300)%nat ->
  runState (while_cycles (S fuel) cycles) s =
  if overflow (after 1 s)
  then runState
         (print (overflow_detected (cycles + 1)) ;;
          ret (cycles + 1)%nat) (edge s)
  else runState (while_cycles fuel (cycles + 1)) (edge s).
Proof.
  intros Hc. cbn [while_cycles].
  destruct (Nat.ltb_spec cycles 300) as [_|]; [|lia].
  cbn [bind Monad_state runState Tick read_overflow regs].
  unfold after, edge, execState. cbn [Nat.iter nat_rect Tick runState snd].
  destruct (overflow (elaborate (enable s) (regs s))); reflexivity.
Qed.

(** At the cap the loop is left at once. *)
Lemma while_cycles_done (fuel cycles : nat) (s : Sim) :
  (300 <= cycles)%nat ->
  runState (while_cycles fuel cycles) s = (cycles, s).
Proof.
  intros Hc. destruct fuel; cbn [while_cycles];
    destruct (Nat.ltb_spec cycles 300); try lia; reflexivity.
Qed.

(** The bound on iterations is never what ends the loop: any [fuel] that
    covers the distance to the cap gives the same run. *)
Lemma fuel_enough (fuel cycles : nat) (s : Sim) :
  (300 - cycles <= fuel)%nat ->
  runState (while_cycles fuel cycles) s =
  runState (while_cycles (300 - cycles) cycles) s.
Proof.
  revert cycles s. induction fuel as [|fuel IH]; intros cycles s Hf.
  - replace (300 - cycles)%nat with 0%nat by lia. reflexivity.
  - destruct (Nat.lt_ge_cases cycles 300) as [Hc|Hc].
    + replace (300 - cycles)%nat with (S (300 - (cycles + 1))) by lia.
      rewrite !while_cycles_step by exact Hc.
      destruct (overflow (after 1 s)); [reflexivity|].
      apply IH. lia.
    + rewrite !while_cycles_done by exact Hc. reflexivity.
Qed.

(** What the loop of test 4 does from any value of [cycles] below or at the
    cap. *)
Lemma while_cycles_spec (fuel : nat) :
  forall (c : nat) (s : Sim),
  (c + fuel = 300)%nat ->
  let cycles := evalState (while_cycles fuel c) s in
  let s' := execState (while_cycles fuel c) s in
  (c <= cycles <= 300)%nat /\
  enable s' = enable s /\
  regs s' = after (cycles - c) s /\
  List.length (wave s') = (List.length (wave s) + (cycles - c))%nat /\
  (((c < cycles)%nat /\
    overflow (after (cycles - c) s) = true /\
    (forall j, (1 <= j < cycles - c)%nat -> overflow (after j s) = false) /\
    stdout s' =
      (stdout s ++ [overflow_detected cycles])%list)
   \/
   (cycles = 300%nat /\
    (forall j, (1 <= j <= 300 - c)%nat -> overflow (after j s) = false) /\
    stdout s' = stdout s)).
Proof.
  induction fuel as [|fuel IH]; intros c s Hc; unfold evalState, execState.
  - rewrite while_cycles_done by lia. cbn [fst snd].
    replace (c - c)%nat with 0%nat by lia.
    split; [lia|]. split; [reflexivity|]. split; [reflexivity|].
    split; [lia|].
    right. split; [lia|]. split; [|reflexivity]. intros j Hj. lia.
  - rewrite while_cycles_step by lia.
    destruct (overflow (after 1 s)) eqn:Hov.
    + cbn [bind ret Monad_state runState print fst snd enable regs wave stdout].
      replace (c + 1 - c)%nat with 1%nat by lia.
      split; [lia|]. split; [reflexivity|]. split; [reflexivity|].
      split; [rewrite edge_wave; lia|].
      left. split; [lia|]. split; [exact Hov|]. split; [|reflexivity].
      intros j Hj. lia.
    + specialize (IH (c + 1)%nat (edge s) ltac:(lia)).
      unfold evalState, execState in IH.
      destruct (runState (while_cycles fuel (c + 1)) (edge s)) as [cycles s'].
      cbn [fst snd] in *.
      destruct IH as (Hb & He & Hr & Hw & Hcase).
      rewrite after_edge in Hr. rewrite edge_wave in Hw.
      assert (Hfirst : forall j bound,
                 (forall i, (1 <= i <= bound)%nat ->
                            overflow (after i (edge s)) = false) ->
                 (1 <= j <= S bound)%nat -> overflow (after j s) = false).
      { intros j bound Hall Hj. destruct j as [|[|j]]; [lia | exact Hov |].
        rewrite <- after_edge. apply Hall. lia. }
      split; [lia|]. split; [exact He|].
      split; [rewrite Hr; f_equal; lia|]. split; [lia|].
      destruct Hcase as [(Hlt & Ht & Hall & Hout) | (Heq & Hall & Hout)].
      * left. split; [lia|]. split; [|split; [|exact Hout]].
        -- rewrite after_edge in Ht.
           replace (cycles - c)%nat with (S (cycles - (c + 1))) by lia.
           exact Ht.
        -- intros j Hj.
           apply (Hfirst j (cycles - (c + 1) - 1)%nat); [|lia].
           intros i Hi. apply Hall. lia.
      * right. split; [exact Heq|]. split; [|exact Hout].
        intros j Hj. apply (Hfirst j (300 - (c + 1))%nat); [exact Hall|lia].
Qed.

(** C5: the polling loop of test 4, started in any simulator state,
    advances [cycles <= 300] clock edges.  Either it stops at the first edge
    after which overflow reads true and prints that cycle index, or no edge
    among the 300 shows overflow, it stops at the cap and prints nothing. *)
Theorem polling_phase_capped (s : Sim) :
  let cycles := evalState (while_cycles 300 0) s in
  let s' := execState (while_cycles 300 0) s in
  (cycles <= 300)%nat /\
  List.length (wave s') = (List.length (wave s) + cycles)%nat /\
  regs s' = after cycles s /\
  (((1 <= cycles)%nat /\
    overflow (after cycles s) = true /\
    (forall j, (1 <= j < cycles)%nat -> overflow (after j s) = false) /\
    stdout s' =
      (stdout s ++ [overflow_detected cycles])%list)
   \/
   (cycles = 300%nat /\
    (forall j, (1 <= j <= 300)%nat -> overflow (after j s) = false) /\
    stdout s' = stdout s)).
Proof.
  intros cycles s'.
  destruct (while_cycles_spec 300 0 s eq_refl)
    as (Hb & _ & Hr & Hw & Hcase).
  fold cycles s' in Hb, Hr, Hw, Hcase.
  rewrite Nat.sub_0_r in *.
  split; [lia|]. split; [exact Hw|]. split; [exact Hr|].
  destruct Hcase as [(Hlt & Ht & Hall & Hout) | (Heq & Hall & Hout)].
  - left. split; [lia|]. split; [exact Ht|]. split; [exact Hall|exact Hout].
  - right. split; [exact Heq|]. split; [exact Hall|exact Hout].
Qed.

(** C7: an edge taken with [enable] false keeps the count and clears
    overflow, in every state.  From the initial state any number of such
    edges leaves the registers as they are, and the five edges with which
    the testbench starts record count 0 and overflow false at each of
    them. *)
Theorem disabled_edge_holds :
  (forall s : CounterState,
     count (elaborate false s) = count s /\
     overflow (elaborate false s) = false) /\
  (forall k : nat, run (repeat false k) reset = reset) /\
  (let s := execState (set_enable false ;; for_range 5 Tick) boot in
   regs s = {| count := 0; overflow := false |} /\
   wave s = repeat (false, {| count := 0; overflow := false |}) 5).
Proof.
  split; [|split].
  - intros s. rewrite elaborate_disabled. split; reflexivity.
  - induction k as [|k IH]; [reflexivity | exact IH].
  - split; reflexivity.
Qed.

(** C9: under the fixed stimulus the counter stands at 30 with [enable] true
    when test 4 starts; the polling loop then reads overflow false after
    each of its first 225 edges and true after the 226th, leaves at
    [cycles = 226], below the cap of 300, and the testbench prints the
    overflow line. *)
Theorem overflow_at_cycle_226 :
  let s4 := execState stimulus boot in
  regs s4 = {| count := 30; overflow := false |} /\
  enable s4 = true /\
  forallb (fun j => negb (overflow (after j s4))) (seq 1 225) = true /\
  overflow (after 226 s4) = true /\
  evalState count_to_overflow s4 = 226%nat /\
  (226 < 300)%nat /\
  stdout (execState testbench boot) =
    ["Test 1: Enable counting";
     "Test 2: Disable counting";
     "Test 3: Resume counting";
     "Test 4: Counting to overflow";
     "  Overflow detected at cycle 226";
     "Simulation complete!"].
Proof.
  vm_compute. repeat split. apply Nat.leb_le. reflexivity.
Qed.

(** *** Further properties of the testbench *)

Lemma after_S (j : nat) (s : Sim) :
  after (S j) s = elaborate (enable s) (after j s).
Proof. reflexivity. Qed.

(** Holding the input for [j] edges is the history that repeats it. *)
Lemma after_run (j : nat) (s : Sim) :
  after j s = run (repeat (enable s) j) (regs s).
Proof.
  induction j as [|j IH]; [reflexivity|].
  rewrite after_S, IH. cbn [repeat]. rewrite repeat_cons.
  symmetry. apply run_snoc.
Qed.

Lemma count_after_enabled (j : nat) (s : Sim) :
  enable s = true ->
  (0 <= count (regs s) < 256)%Z ->
  count (after j s) = ((count (regs s) + Z.of_nat j) mod 256)%Z.
Proof.
  intros He Hc. rewrite after_run, count_run by exact Hc.
  rewrite He. unfold enabled_edges.
  rewrite count_occ_repeat_eq by reflexivity. reflexivity.
Qed.

Lemma overflow_after_disabled (j : nat) (s : Sim) :
  enable s = false -> overflow (after (S j) s) = false.
Proof. intros He. rewrite after_S, He. reflexivity. Qed.

Lemma count_after_disabled (j : nat) (s : Sim) :
  enable s = false -> count (after j s) = count (regs s).
Proof.
  intros He. induction j as [|j IH]; [reflexivity|].
  rewrite after_S, He, elaborate_disabled. exact IH.
Qed.

(** X5: [for _ in range(n): yield Tick()] is [n] clock edges under the
    input as it stands: the registers end where that history of the counter
    leads, the waveform gains one sample per edge, in order, and neither the
    input nor the output lines change. *)
Theorem for_range_ticks (n : nat) (s : Sim) :
  let s' := execState (for_range n Tick) s in
  regs s' = run (repeat (enable s) n) (regs s) /\
  wave s' =
    (wave s ++ map (fun j => (enable s, after j s)) (seq 1 n))%list /\
  enable s' = enable s /\
  stdout s' = stdout s.
Proof.
  cbn zeta. rewrite <- after_run. revert s.
  induction n as [|n IH]; intros s.
  - cbn. rewrite app_nil_r. repeat split.
  - change (execState (for_range (S n) Tick) s)
      with (execState (for_range n Tick) (edge s)).
    destruct (IH (edge s)) as (Hr & Hw & He & Ho).
    rewrite Hr, Hw, He, Ho, after_edge.
    split; [reflexivity|]. split; [|split; reflexivity].
    cbn [edge execState Tick runState snd wave enable].
    rewrite <- app_assoc. f_equal. cbn [app seq map]. f_equal.
    rewrite <- (seq_shift n 1), map_map. apply map_ext. intros j.
    rewrite <- after_edge. reflexivity.
Qed.

(** X6: with the input enabled and an eight-bit count [c], the polling loop
    of test 4 never reaches its cap: it leaves after exactly [256 - c]
    edges, prints that cycle index, and leaves the counter wrapped to 0 with
    overflow raised. *)
Theorem polling_enabled_detects (s : Sim) :
  enable s = true ->
  (0 <= count (regs s) < 256)%Z ->
  let cycles := evalState (while_cycles 300 0) s in
  let s' := execState (while_cycles 300 0) s in
  Z.of_nat cycles = (256 - count (regs s))%Z /\
  regs s' = {| count := 0; overflow := true |} /\
  stdout s' = (stdout s ++ [overflow_detected cycles])%list.
Proof.
  intros He Hc cycles s'.
  destruct (while_cycles_spec 300 0 s eq_refl)
    as (Hb & _ & Hr & _ & Hcase).
  fold cycles s' in Hb, Hr, Hcase. rewrite Nat.sub_0_r in *.
  assert (Hwrap : forall j : nat,
             overflow (after (S j) s) = true <->
             ((count (regs s) + Z.of_nat j) mod 256 = 255)%Z).
  { intros j. rewrite after_S, He, elaborate_enabled. cbn [overflow].
    rewrite count_after_enabled by assumption. apply Z.eqb_eq. }
  set (k := Z.to_nat (255 - count (regs s))).
  assert (Hk : overflow (after (S k) s) = true).
  { apply Hwrap. unfold k. rewrite Z2Nat.id by lia.
    replace (count (regs s) + (255 - count (regs s)))%Z with 255%Z by lia.
    reflexivity. }
  destruct Hcase as [(Hlt & Ht & Hall & Hout) | (_ & Hall & _)].
  - destruct cycles as [|j]; [lia|].
    pose proof (proj1 (Hwrap j) Ht) as Hj.
    assert (Hjk : j = k).
    { destruct (Nat.lt_trichotomy j k) as [Hlo | [Heq | Hhi]].
      - exfalso. unfold k in Hlo. rewrite Z.mod_small in Hj by lia. lia.
      - exact Heq.
      - exfalso. rewrite (Hall (S k)) in Hk by lia. discriminate Hk. }
    split; [unfold k in Hjk; lia|]. split; [|exact Hout].
    rewrite Hr, after_S, He, elaborate_enabled.
    rewrite count_after_enabled by assumption.
    rewrite Hj. reflexivity.
  - exfalso. rewrite (Hall (S k)) in Hk; [discriminate Hk|].
    unfold k. lia.
Qed.

Lemma polling_enabled_detects_witness :
  let s := {| enable := true; regs := {| count := 100; overflow := false |};
              wave := []; stdout := [] |} in
  enable s = true /\ (0 <= count (regs s) < 256)%Z /\
  Z.of_nat (evalState (while_cycles 300 0) s) = (256 - 100)%Z /\
  regs (execState (while_cycles 300 0) s) =
    {| count := 0; overflow := true |} /\
  stdout (execState (while_cycles 300 0) s) =
    ["  Overflow detected at cycle 156"].
Proof.
  intros s. split; [reflexivity|]. split; [cbn; lia|].
  destruct (polling_enabled_detects s) as (H1 & H2 & H3);
    [reflexivity | cbn; lia |].
  split; [exact H1|]. split; [exact H2|]. exact H3.
Defined.

(** X7: with the input disabled the polling loop of test 4 finds nothing:
    it takes all 300 edges of its cap, prints no line, and leaves the count
    where it was. *)
Theorem polling_disabled_hits_cap (s : Sim) :
  enable s = false ->
  let cycles := evalState (while_cycles 300 0) s in
  let s' := execState (while_cycles 300 0) s in
  cycles = 300%nat /\
  List.length (wave s') = (List.length (wave s) + 300)%nat /\
  count (regs s') = count (regs s) /\
  overflow (regs s') = false /\
  stdout s' = stdout s.
Proof.
  intros He cycles s'.
  destruct (while_cycles_spec 300 0 s eq_refl)
    as (Hb & _ & Hr & Hw & Hcase).
  fold cycles s' in Hb, Hr, Hw, Hcase. rewrite Nat.sub_0_r in *.
  destruct Hcase as [(Hlt & Ht & _ & _) | (Heq & _ & Hout)].
  - exfalso. destruct cycles as [|j]; [lia|].
    rewrite overflow_after_disabled in Ht by exact He. discriminate Ht.
  - rewrite Heq in Hr, Hw.
    split; [exact Heq|]. split; [exact Hw|].
    rewrite Hr. split; [apply count_after_disabled; exact He|].
    split; [apply (overflow_after_disabled 299); exact He | exact Hout].
Qed.

Lemma polling_disabled_hits_cap_witness :
  let s := {| enable := false; regs := {| count := 255; overflow := false |};
              wave := []; stdout := ["Test 4: Counting to overflow"] |} in
  enable s = false /\
  evalState (while_cycles 300 0) s = 300%nat /\
  count (regs (execState (while_cycles 300 0) s)) = 255%Z /\
  stdout (execState (while_cycles 300 0) s) = stdout s.
Proof.
  intros s. split; [reflexivity|].
  destruct (polling_disabled_hits_cap s) as (H1 & _ & H3 & _ & H5);
    [reflexivity|].
  split; [exact H1|]. split; [exact H3 | exact H5].
Defined.

End SimFacts.

(** ** Properties of the command line *)

Module CliFacts.
Import Counter Sim Cli.
Local Open Scope string_scope.

Lemma lookup_written (name : string) (c : Content)
    (fs : list (string * Content)) :
  lookup name (write_file name c fs) = Some c.
Proof.
  unfold lookup, write_file. cbn [find fst].
  rewrite String.eqb_refl. reflexivity.
Qed.

Lemma lookup_other (name other : string) (c : Content)
    (fs : list (string * Content)) :
  other <> name ->
  lookup name (write_file other c fs) = lookup name fs.
Proof.
  intros Hne. unfold lookup, write_file. cbn [find fst].
  destruct (String.eqb_spec other name) as [|_]; [contradiction|].
  induction fs as [|[n c'] fs IH]; [reflexivity|].
  cbn [filter find fst].
  destruct (String.eqb_spec n other) as [->|Hno]; cbn [negb].
  - destruct (String.eqb_spec other name) as [|_]; [contradiction|].
    exact IH.
  - cbn [find fst]. destruct (n =? name); [reflexivity | exact IH].
Qed.

(** C6: with no command-line argument the program runs the simulation,
    which writes the waveform to [counter.vcd]; with first argument
    [verilog] it writes [counter.v] instead, leaves [counter.vcd] as it was
    and prints nothing but the line of [generate_verilog]. *)
Theorem main_dispatch (prog : string) (rest : list string) (w : World) :
  (main [prog] w = simulate w /\
   lookup "counter.vcd" (files (main [prog] w)) =
     Some (Vcd (wave (execState testbench boot)))) /\
  (let w' := main (prog :: "verilog" :: rest) w in
   w' = generate_verilog w /\
   lookup "counter.v" (files w') =
     Some (Verilog ["enable"; "count"; "overflow"]) /\
   lookup "counter.vcd" (files w') = lookup "counter.vcd" (files w) /\
   console w' = (console w ++ ["Verilog file generated: counter.v"])%list).
Proof.
  split.
  - split; [reflexivity|].
    change (main [prog] w) with (simulate w). unfold simulate. cbn [files].
    rewrite lookup_other by discriminate. apply lookup_written.
  - change (main (prog :: "verilog" :: rest) w) with (generate_verilog w).
    cbn zeta. split; [reflexivity|]. unfold generate_verilog.
    cbn [files console].
    split; [apply lookup_written|].
    split; [apply lookup_other; discriminate | reflexivity].
Qed.

(** C10: a first argument other than [verilog] is not rejected: the program
    does what it does without arguments, it runs the simulation. *)
Theorem main_other_argument
    (prog arg : string) (rest : list string) (w : World) :
  arg <> "verilog" ->
  main (prog :: arg :: rest) w = main [prog] w /\
  main (prog :: arg :: rest) w = simulate w.
Proof.
  intros Hne. unfold main. cbn [List.length nth_error Nat.ltb Nat.leb andb].
  destruct (String.eqb_spec arg "verilog") as [|_]; [contradiction|].
  split; reflexivity.
Qed.

Lemma main_other_argument_witness :
  let w := {| files := []; console := [] |} in
  "vhdl" <> "verilog" /\
  main ["counter.py"; "vhdl"] w = main ["counter.py"] w /\
  main ["counter.py"; "vhdl"] w = simulate w.
Proof.
  intros w. split; [discriminate|].
  apply (main_other_argument "counter.py" "vhdl" [] w). discriminate.
Defined.

(** *** Further properties of the command line *)

Lemma filter_other_twice (n m : string) (fs : list (string * Content)) :
  let keep (x : string) := fun f : string * Content => negb (fst f =? x) in
  filter (keep n) (filter (keep m) (filter (keep n) (filter (keep m) fs))) =
  filter (keep n) (filter (keep m) fs).
Proof.
  cbn zeta. induction fs as [|[x c] fs IH]; [reflexivity|].
  cbn [filter fst].
  destruct (x =? m) eqn:Hm; cbn [negb filter fst]; [exact IH|].
  destruct (x =? n) eqn:Hn; cbn [negb filter fst]; [exact IH|].
  rewrite Hm. cbn [negb filter fst]. rewrite Hn. cbn [negb].
  f_equal. exact IH.
Qed.

Lemma filter_twice (n : string) (fs : list (string * Content)) :
  let keep := fun f : string * Content => negb (fst f =? n) in
  filter keep (filter keep fs) = filter keep fs.
Proof.
  cbn zeta. induction fs as [|[x c] fs IH]; [reflexivity|].
  cbn [filter fst].
  destruct (x =? n) eqn:Hn; cbn [negb filter fst]; [exact IH|].
  rewrite Hn. cbn [negb]. f_equal. exact IH.
Qed.

(** X8: the simulation writes [counter.vcd] and [counter.gtkw] and
    nothing else: every other file, [counter.v] among them, is left as it
    was, and what was on the console before is still there, in front of
    the new lines. *)
Theorem simulate_frame (name : string) (w : World) :
  name <> "counter.vcd" ->
  name <> "counter.gtkw" ->
  lookup name (files (simulate w)) = lookup name (files w) /\
  exists lines, console (simulate w) = (console w ++ lines)%list.
Proof.
  intros Hv Hg. split.
  - unfold simulate. cbn [files].
    rewrite !lookup_other by (intros E; symmetry in E; contradiction).
    reflexivity.
  - eexists. reflexivity.
Qed.

Lemma simulate_frame_witness :
  let w := {| files := [("counter.v", Verilog ["clk"])]; console := [] |} in
  "counter.v" <> "counter.vcd" /\ "counter.v" <> "counter.gtkw" /\
  lookup "counter.v" (files (simulate w)) = Some (Verilog ["clk"]).
Proof.
  intros w. split; [discriminate|]. split; [discriminate|].
  destruct (simulate_frame "counter.v" w) as [H _];
    [discriminate | discriminate |].
  exact H.
Defined.

(** X9: [generate_verilog] writes [counter.v] and nothing else: every
    other file, the waveform and its layout among them, is left as it
    was. *)
Theorem generate_verilog_frame (name : string) (w : World) :
  name <> "counter.v" ->
  lookup name (files (generate_verilog w)) = lookup name (files w).
Proof.
  intros Hn. unfold generate_verilog. cbn [files].
  apply lookup_other. intros E. symmetry in E. contradiction.
Qed.

Lemma generate_verilog_frame_witness :
  let w := {| files := [("counter.gtkw", Gtkw)]; console := [] |} in
  "counter.gtkw" <> "counter.v" /\
  lookup "counter.gtkw" (files (generate_verilog w)) = Some Gtkw.
Proof.
  intros w. split; [discriminate|].
  exact (generate_verilog_frame "counter.gtkw" w ltac:(discriminate)).
Defined.

(** X10: the program never reads [sys.argv[1]] out of range.  For every
    argument list, the empty one and the one with the program name alone
    included, the index is guarded by the length test, no [IndexError] is
    raised and the outcome is that of [main]; without a second element the
    simulation runs. *)
Theorem main_never_index_error (argv : list string) (w : World) :
  main_checked argv w = Some (main argv w) /\
  ((List.length argv <= 1)%nat -> main argv w = simulate w).
Proof.
  destruct argv as [|prog [|arg rest]].
  - split; reflexivity.
  - split; reflexivity.
  - split.
    + unfold main_checked, main.
      cbn [List.length nth_error Nat.ltb Nat.leb andb].
      destruct (arg =? "verilog"); reflexivity.
    + cbn [List.length]. intros H. exfalso. lia.
Qed.

Lemma write_file_again (n : string) (c : Content)
    (fs : list (string * Content)) :
  write_file n c (write_file n c fs) = write_file n c fs.
Proof.
  unfold write_file. cbn [filter fst].
  rewrite String.eqb_refl. cbn [negb]. rewrite filter_twice. reflexivity.
Qed.

Lemma write_files_again (n m : string) (c d : Content)
    (fs : list (string * Content)) :
  n <> m ->
  write_file n c (write_file m d (write_file n c (write_file m d fs))) =
  write_file n c (write_file m d fs).
Proof.
  intros Hne. unfold write_file. cbn [filter fst].
  assert (Hmn : (m =? n) = false) by (apply String.eqb_neq; congruence).
  assert (Hnm : (n =? m) = false) by (apply String.eqb_neq; exact Hne).
  rewrite Hmn, Hnm. cbn [negb filter fst].
  rewrite ?String.eqb_refl. cbn [negb filter fst].
  rewrite ?String.eqb_refl, ?Hmn, ?Hnm. cbn [negb filter fst].
  rewrite filter_other_twice. reflexivity.
Qed.

(** X11: running the program again with the same arguments leaves the
    same files: each output is opened for writing and replaced, none is
    added a second time. *)
Theorem main_rerun_keeps_files (argv : list string) (w : World) :
  files (main argv (main argv w)) = files (main argv w).
Proof.
  unfold main.
  destruct ((1 <? List.length argv)%nat
            && match nth_error argv 1 with
               | Some arg => arg =? "verilog"
               | None => false
               end).
  - unfold generate_verilog. cbn [files]. apply write_file_again.
  - unfold simulate. cbn [files]. apply write_files_again. discriminate.
Qed.

End CliFacts.
